(** * mail_service/email_client.py: the order-confirmation client

    A shallow embedding of [send_confirmation_email] and of the module's
    [__main__] block.  The function opens a gRPC channel, builds one request,
    invokes one remote method and logs what happened.  Its effects are
    modelled in an exception-over-state monad: the state is the part of the
    world the function can touch (channel objects, the remote service's
    pending answers, and the trace of everything observable that happened),
    and exceptions leave the state as it was when they were raised, as in
    Python.  The request constructor of the generated module can refuse its
    arguments; what the schema of the order accepts is a parameter of the
    development. *)

From Stdlib Require Import String Ascii ZArith List Lia Bool DecimalString.
From ExtLib Require Import Structures.Monad Structures.MonadState
  Structures.MonadExc Data.Monads.StateMonad Data.Monads.EitherMonad.
Import ListNotations.
Import MonadNotation.
Local Open Scope monad_scope.
Local Open Scope string_scope.
Local Open Scope list_scope.
Set Warnings "-register-all".

(** ** Values *)

(** The Python values an argument of the function can be.  The function is
    untyped: nothing stops a caller from passing [None] or a number where an
    address is expected. *)
Inductive pyval : Type :=
| PyNone
| PyInt (z : Z)
| PyStr (s : string)
| PyDict (items : list (string * pyval)).

(** Modelled from the spec: the request message of the generated module
    [demo_pb2], which is not part of the sources.  "One remote method,
    SendOrderConfirmation, accepting a structure with two fields (email:
    string, order: opaque record)".  A string field that was never set reads
    as the empty string; a record field that was never set is absent. *)
Record SendOrderConfirmationRequest : Type := {
  email : string;
  order : option pyval
}.

(** [grpc.StatusCode]: the closed enumeration of the classification codes;
    the handler reads a member through [.name] and [.value]. *)
Inductive StatusCode : Type :=
| OK | CANCELLED | UNKNOWN | INVALID_ARGUMENT | DEADLINE_EXCEEDED | NOT_FOUND
| ALREADY_EXISTS | PERMISSION_DENIED | RESOURCE_EXHAUSTED | FAILED_PRECONDITION
| ABORTED | OUT_OF_RANGE | UNIMPLEMENTED | INTERNAL | UNAVAILABLE | DATA_LOSS
| UNAUTHENTICATED.

Definition name (c : StatusCode) : string :=
  match c with
  | OK => "OK"
  | CANCELLED => "CANCELLED"
  | UNKNOWN => "UNKNOWN"
  | INVALID_ARGUMENT => "INVALID_ARGUMENT"
  | DEADLINE_EXCEEDED => "DEADLINE_EXCEEDED"
  | NOT_FOUND => "NOT_FOUND"
  | ALREADY_EXISTS => "ALREADY_EXISTS"
  | PERMISSION_DENIED => "PERMISSION_DENIED"
  | RESOURCE_EXHAUSTED => "RESOURCE_EXHAUSTED"
  | FAILED_PRECONDITION => "FAILED_PRECONDITION"
  | ABORTED => "ABORTED"
  | OUT_OF_RANGE => "OUT_OF_RANGE"
  | UNIMPLEMENTED => "UNIMPLEMENTED"
  | INTERNAL => "INTERNAL"
  | UNAVAILABLE => "UNAVAILABLE"
  | DATA_LOSS => "DATA_LOSS"
  | UNAUTHENTICATED => "UNAUTHENTICATED"
  end.

(** The value of a member is a pair: the number of the code and its
    description in lower case. *)
Definition value (c : StatusCode) : Z * string :=
  match c with
  | OK => (0, "ok")
  | CANCELLED => (1, "cancelled")
  | UNKNOWN => (2, "unknown")
  | INVALID_ARGUMENT => (3, "invalid argument")
  | DEADLINE_EXCEEDED => (4, "deadline exceeded")
  | NOT_FOUND => (5, "not found")
  | ALREADY_EXISTS => (6, "already exists")
  | PERMISSION_DENIED => (7, "permission denied")
  | RESOURCE_EXHAUSTED => (8, "resource exhausted")
  | FAILED_PRECONDITION => (9, "failed precondition")
  | ABORTED => (10, "aborted")
  | OUT_OF_RANGE => (11, "out of range")
  | UNIMPLEMENTED => (12, "unimplemented")
  | INTERNAL => (13, "internal")
  | UNAVAILABLE => (14, "unavailable")
  | DATA_LOSS => (15, "data loss")
  | UNAUTHENTICATED => (16, "unauthenticated")
  end%Z.

Definition all_codes : list StatusCode :=
  [OK; CANCELLED; UNKNOWN; INVALID_ARGUMENT; DEADLINE_EXCEEDED; NOT_FOUND;
   ALREADY_EXISTS; PERMISSION_DENIED; RESOURCE_EXHAUSTED; FAILED_PRECONDITION;
   ABORTED; OUT_OF_RANGE; UNIMPLEMENTED; INTERNAL; UNAVAILABLE; DATA_LOSS;
   UNAUTHENTICATED].

(** What [grpc.RpcError] carries, as the handler reads it: [err.details()]
    and [err.code()]. *)
Record RpcError : Type := {
  details : string;
  code : StatusCode
}.

(** Python exceptions.  [except grpc.RpcError] catches the first kind only. *)
Inductive exn : Type :=
| GrpcRpcError (err : RpcError)
| OtherError (cls : string) (msg : string).

(** Why a computation stopped before its end: an exception, or a remote
    call that never answers (no timeout is configured). *)
Inductive signal : Type :=
| Exception (e : exn)
| Hang.

(** What the remote service does with one call. *)
Inductive rpc_outcome : Type :=
| Returns (response : pyval)
| Raises (e : exn).

(** ** The world *)

Inductive log_level : Type := INFO | ERROR.

Record log_record : Type := {
  logger_name : string;
  level : log_level;
  message : string
}.

(** A channel object.  Its identity is its index in [channels]. *)
Record channel : Type := {
  target : string;
  closed : bool
}.

Inductive event : Type :=
| EvChannel (id : nat) (addr : string)
| EvClose (id : nat)
| EvCall (chan : nat) (method : string) (request : SendOrderConfirmationRequest)
| EvLog (r : log_record).

Record world : Type := {
  channels : list channel;
  pending : list rpc_outcome;
  trace : list event
}.

Definition py : Type -> Type := eitherT signal (state world).

Definition run {A : Type} (c : py A) (w : world) : (signal + A) * world :=
  runState (unEitherT c) w.

Definition result {A : Type} (c : py A) (w : world) : signal + A := fst (run c w).
Definition after {A : Type} (c : py A) (w : world) : world := snd (run c w).

(** The events a computation adds to the trace. *)
Definition emitted {A : Type} (c : py A) (w : world) : list event :=
  skipn (length (trace w)) (trace (after c w)).

Definition record_event (e : event) (w : world) : world :=
  {| channels := channels w; pending := pending w; trace := trace w ++ [e] |}.

Definition with_pending (p : list rpc_outcome) (w : world) : world :=
  {| channels := channels w; pending := p; trace := trace w |}.

(** ** The collaborators: grpc, the generated stub, the logging helper *)

(** [grpc.insecure_channel(target)]: a new channel object each time. *)
Definition insecure_channel (addr : string) : py nat :=
  w <- get ;;
  let id := length (channels w) in
  put (record_event (EvChannel id addr)
         {| channels := channels w ++ [{| target := addr; closed := false |}];
            pending := pending w; trace := trace w |}) ;;
  ret id.

Fixpoint close_at (id : nat) (cs : list channel) : list channel :=
  match cs, id with
  | [], _ => []
  | c :: cs', O => {| target := target c; closed := true |} :: cs'
  | c :: cs', S id' => c :: close_at id' cs'
  end.

(** [channel.close()]. *)
Definition channel_close (id : nat) : py unit :=
  w <- get ;;
  put (record_event (EvClose id)
         {| channels := close_at id (channels w);
            pending := pending w; trace := trace w |}).

(** Modelled from the spec: the generated stub of [demo_pb2_grpc], which is
    not part of the sources, "generated client-side proxy exposing remote
    methods as local function calls".  Building it has no effect. *)
Record EmailServiceStub_obj : Type := { stub_channel : nat }.

Definition EmailServiceStub (chan : nat) : py EmailServiceStub_obj :=
  ret {| stub_channel := chan |}.

Definition is_open (id : nat) (w : world) : bool :=
  match nth_error (channels w) id with
  | Some c => negb (closed c)
  | None => false
  end.

(** [stub.SendOrderConfirmation(request)]: one synchronous call.  grpc
    refuses to invoke on a closed channel; otherwise the request goes out
    and the service's next answer decides: a response, an exception, or
    nothing at all. *)
Definition SendOrderConfirmation (stub : EmailServiceStub_obj)
    (request : SendOrderConfirmationRequest) : py pyval :=
  w <- get ;;
  if is_open (stub_channel stub) w then
    put (record_event (EvCall (stub_channel stub) "SendOrderConfirmation" request)
           (with_pending (tl (pending w)) w)) ;;
    match pending w with
    | [] => raise Hang
    | Returns response :: _ => ret response
    | Raises e :: _ => raise (Exception e)
    end
  else raise (Exception (OtherError "ValueError" "Cannot invoke RPC on closed channel!")).

(** Modelled from the spec: the helper [log.getJSONLogger], which is not
    part of the sources.  "Structured (field-tagged) log records emitted
    through an external logging helper; log levels used: informational,
    error". *)
Record logger_obj : Type := { logger_id : string }.

Definition getJSONLogger (id : string) : logger_obj := {| logger_id := id |}.

Definition emit (l : logger_obj) (lv : log_level) (msg : string) : py unit :=
  w <- get ;;
  put (record_event
         (EvLog {| logger_name := logger_id l; level := lv; message := msg |}) w).

Definition logger_info (l : logger_obj) (msg : string) : py unit := emit l INFO msg.
Definition logger_error (l : logger_obj) (msg : string) : py unit := emit l ERROR msg.

(** [str(n)] for an integer. *)
Definition str_int (n : Z) : string := NilZero.string_of_int (Z.to_int n).

(** A character that [repr] copies as it is and that is no quote. *)
Definition plain_char (c : ascii) : bool :=
  let n := nat_of_ascii c in
  ((97 <=? n)%nat && (n <=? 122)%nat) || (n =? 32)%nat.

Fixpoint plain (s : string) : bool :=
  match s with
  | EmptyString => true
  | String c s' => plain_char c && plain s'
  end.

(** [repr(s)] for a string of lower-case letters and spaces, which is what
    every description of a status code is: the string between single
    quotes. *)
Definition repr_str (s : string) : string := ("'" ++ s ++ "'")%string.

(** [str(v)] for a pair of an integer and a string: both components as
    [repr] prints them. *)
Definition str_pair (v : Z * string) : string :=
  ("(" ++ str_int (fst v) ++ ", " ++ repr_str (snd v) ++ ")")%string.

(** ['{}, {}'.format(a, b)] for a string [a] and a pair [b]. *)
Definition format_pair (a : string) (b : Z * string) : string :=
  (a ++ ", " ++ str_pair b)%string.

(** Whether [needle] occurs in [hay]. *)
Fixpoint contains (needle hay : string) : bool :=
  String.prefix needle hay
  || match hay with
     | EmptyString => false
     | String _ hay' => contains needle hay'
     end.

(** [try: body  except grpc.RpcError as err: handler]: any other stop goes
    on to the caller. *)
Definition try_except_RpcError {A : Type} (body : py A) (handler : RpcError -> py A) : py A :=
  catch body (fun s => match s with
                       | Exception (GrpcRpcError err) => handler err
                       | _ => raise s
                       end).

(** ** The module *)

Definition logger : logger_obj := getJSONLogger "emailservice-client".

(** The statements of the module after its definitions, for a given value of
    [__name__]. *)
Definition module_toplevel (name__ : string) : py unit :=
  if String.eqb name__ "__main__"
  then logger_info logger "Client for email service."
  else ret tt.

(** ** Reading a trace *)

Definition rpc_calls (t : list event) : list (nat * string * SendOrderConfirmationRequest) :=
  flat_map (fun e => match e with EvCall c m r => [(c, m, r)] | _ => [] end) t.

Definition log_records (t : list event) : list log_record :=
  flat_map (fun e => match e with EvLog r => [r] | _ => [] end) t.

Definition channels_opened (t : list event) : list (nat * string) :=
  flat_map (fun e => match e with EvChannel i a => [(i, a)] | _ => [] end) t.

Definition channels_closed (t : list event) : list nat :=
  flat_map (fun e => match e with EvClose i => [i] | _ => [] end) t.

Definition is_level (lv : log_level) (r : log_record) : bool :=
  match lv, level r with
  | INFO, INFO | ERROR, ERROR => true
  | _, _ => false
  end.

Definition count_level (lv : log_level) (rs : list log_record) : nat :=
  length (filter (is_level lv) rs).

(** What an observer of the wire and of the log sees: requests and log
    records, without the identity of the channel object that carried them. *)
Inductive observation : Type :=
| ObsRequest (method : string) (request : SendOrderConfirmationRequest)
| ObsLog (r : log_record).

Definition observe (t : list event) : list observation :=
  flat_map (fun e => match e with
                     | EvCall _ m r => [ObsRequest m r]
                     | EvLog r => [ObsLog r]
                     | _ => []
                     end) t.

(** ** Names for what is logged and where *)

Definition address : string := "[::]:8080".

Definition info_record (msg : string) : log_record :=
  {| logger_name := "emailservice-client"; level := INFO; message := msg |}.

Definition error_record (msg : string) : log_record :=
  {| logger_name := "emailservice-client"; level := ERROR; message := msg |}.

(** The log records of a call whose request went out, by what the service
    answers. *)
Definition answer_events (o : option rpc_outcome) : list event :=
  match o with
  | Some (Returns _) => [EvLog (info_record "Request sent.")]
  | Some (Raises (GrpcRpcError err)) =>
      [EvLog (error_record (details err));
       EvLog (error_record (format_pair (name (code err)) (value (code err))))]
  | Some (Raises (OtherError _ _)) => []
  | None => []
  end.

(** How such a call ends. *)
Definition answer_result (o : option rpc_outcome) : signal + unit :=
  match o with
  | Some (Returns _) => inr tt
  | Some (Raises (GrpcRpcError _)) => inr tt
  | Some (Raises (OtherError cls msg)) => inl (Exception (OtherError cls msg))
  | None => inl Hang
  end.

(** The two outcomes of the remote call that the function handles: a
    response, or a [grpc.RpcError]. *)
Definition success_or_rpc_failure (o : rpc_outcome) : Prop :=
  match o with
  | Returns _ => True
  | Raises (GrpcRpcError _) => True
  | Raises (OtherError _ _) => False
  end.

(** ** Concrete data for runs *)

Definition world0 : world := {| channels := []; pending := []; trace := [] |}.

Definition order123 : pyval := PyDict [("order_id", PyStr "123")].

Definition unavailable : RpcError :=
  {| details := "unavailable"; code := UNAVAILABLE |}.

Definition two_orders : list (pyval * pyval) :=
  [(PyStr "a@b.com", order123); (PyNone, PyNone)].

(** A schema to run with: an order of two string fields.  A key that is no
    field is a ValueError, a field value that is no string a TypeError. *)
Definition sample_text (field : string) (v : pyval) : string :=
  ("bad value for field " ++ field)%string.

Fixpoint sample_rejects (items : list (string * pyval)) : option (string * string) :=
  match items with
  | [] => None
  | (key, v) :: items' =>
      if String.eqb key "order_id" || String.eqb key "shipping_tracking_id" then
        match v with
        | PyStr _ => sample_rejects items'
        | _ => Some ("TypeError", sample_text key v)
        end
      else Some ("ValueError", ("no field " ++ key)%string)
  end.

(** ** The request constructor and the function *)

Section Demo_pb2.

(** The generated module [demo_pb2] and the protobuf runtime under it are
    not part of the sources.  Two things of theirs are parameters: the text
    of the TypeError raised for a value of the wrong kind in a field, and
    what the message type of the order makes of a record: nothing to object
    ([None]), or the class and text of the exception it raises. *)
Variable type_error_text : string -> pyval -> string.
Variable OrderResult_rejects : list (string * pyval) -> option (string * string).

(** The keyword argument [email=]: [None] leaves the field unset, a string
    sets it, anything else is a TypeError. *)
Definition email_field (v : pyval) : (string * string) + string :=
  match v with
  | PyNone => inr ""
  | PyStr s => inr s
  | PyInt _ | PyDict _ => inl ("TypeError", type_error_text "email" v)
  end.

(** The keyword argument [order=]: [None] leaves the field unset, a record
    is handed to the message type of the order, anything else is a
    TypeError. *)
Definition order_field (v : pyval) : (string * string) + option pyval :=
  match v with
  | PyNone => inr None
  | PyDict items =>
      match OrderResult_rejects items with
      | Some e => inl e
      | None => inr (Some v)
      end
  | PyInt _ | PyStr _ => inl ("TypeError", type_error_text "order" v)
  end.

(** [demo_pb2.SendOrderConfirmationRequest(email=..., order=...)], the
    keyword arguments taken in the order they are written: the request, or
    the class and text of the exception raised. *)
Definition SendOrderConfirmationRequest_init (email order : pyval)
    : (string * string) + SendOrderConfirmationRequest :=
  match email_field email with
  | inl e => inl e
  | inr s =>
      match order_field order with
      | inl e => inl e
      | inr o => inr {| email := s; order := o |}
      end
  end.

Definition new_SendOrderConfirmationRequest (email order : pyval)
    : py SendOrderConfirmationRequest :=
  match SendOrderConfirmationRequest_init email order with
  | inl (cls, msg) => raise (Exception (OtherError cls msg))
  | inr request => ret request
  end.

(** Whether the constructor takes the pair. *)
Definition accepted (email order : pyval) : bool :=
  match SendOrderConfirmationRequest_init email order with
  | inl _ => false
  | inr _ => true
  end.

Definition send_confirmation_email (email order : pyval) : py unit :=
  channel <- insecure_channel "[::]:8080" ;;
  stub <- EmailServiceStub channel ;;
  try_except_RpcError
    (request <- new_SendOrderConfirmationRequest email order ;;
     response <- SendOrderConfirmation stub request ;;
     logger_info logger "Request sent.")
    (fun err =>
       logger_error logger (details err) ;;
       logger_error logger (format_pair (name (code err)) (value (code err)))).

(** A caller that sends one confirmation per (email, order) pair, in order:
    [for email, order in args: send_confirmation_email(email, order)]. *)
Fixpoint send_all (args : list (pyval * pyval)) : py unit :=
  match args with
  | [] => ret tt
  | (email, order) :: args' =>
      send_confirmation_email email order ;; send_all args'
  end.

(** The request that goes out for a pair the constructor takes. *)
Definition request_of (a : pyval * pyval) : SendOrderConfirmationRequest :=
  {| email := match fst a with PyStr s => s | _ => "" end;
     order := match snd a with PyNone => None | _ => Some (snd a) end |}.

(** The events of one call, by what the constructor and the service do. *)
Definition call_events (n : nat) (email order : pyval) (o : option rpc_outcome)
    : list event :=
  EvChannel n address
  :: match SendOrderConfirmationRequest_init email order with
     | inl _ => []
     | inr request => EvCall n "SendOrderConfirmation" request :: answer_events o
     end.

(** How one call ends. *)
Definition call_result (email order : pyval) (o : option rpc_outcome) : signal + unit :=
  match SendOrderConfirmationRequest_init email order with
  | inl (cls, msg) => inl (Exception (OtherError cls msg))
  | inr _ => answer_result o
  end.

(** The answers one call leaves for the next ones. *)
Definition call_pending (email order : pyval) (p : list rpc_outcome) : list rpc_outcome :=
  match SendOrderConfirmationRequest_init email order with
  | inl _ => p
  | inr _ => tl p
  end.

(** The events of several calls, every pair taken by the constructor and
    every call answered, the first channel being number [n]. *)
Fixpoint batch_events (n : nat) (args : list (pyval * pyval))
    (answers : list rpc_outcome) : list event :=
  match args with
  | [] => []
  | (email, order) :: args' =>
      call_events n email order (hd_error answers)
      ++ batch_events (S n) args' (tl answers)
  end.

(** ** Lemmas *)

Lemma skipn_own_length {A : Type} (l r : list A) : skipn (length l) (l ++ r) = r.
Proof. induction l as [|x l IH]; simpl; auto. Qed.

Lemma fresh_channel_open (cs : list channel) (c : channel) p t :
  closed c = false ->
  is_open (length cs) {| channels := cs ++ [c]; pending := p; trace := t |} = true.
Proof.
  intros Hc. unfold is_open. simpl.
  rewrite nth_error_app2 by lia. rewrite Nat.sub_diag. simpl.
  rewrite Hc. reflexivity.
Qed.

(** *** The monad's equations *)

Section Equations.
Context {A B : Type}.

Lemma run_ret (a : A) (w : world) : run (ret a) w = (inr a, w).
Proof. reflexivity. Qed.

Lemma run_raise (s : signal) (w : world) : run (raise s : py A) w = (inl s, w).
Proof. reflexivity. Qed.

Lemma run_bind (c : py A) (f : A -> py B) (w : world) :
  run (bind c f) w =
  match run c w with
  | (inl s, w') => (inl s, w')
  | (inr a, w') => run (f a) w'
  end.
Proof.
  unfold run. simpl.
  destruct (runState (unEitherT c) w) as [[s | a] w']; reflexivity.
Qed.

Lemma run_try_except (body : py A) (handler : RpcError -> py A) (w : world) :
  run (try_except_RpcError body handler) w =
  match run body w with
  | (inl (Exception (GrpcRpcError err)), w') => run (handler err) w'
  | other => other
  end.
Proof.
  unfold run, try_except_RpcError. simpl.
  destruct (runState (unEitherT body) w) as [[[[err | cls msg] |] | a] w'];
    reflexivity.
Qed.
End Equations.

Lemma run_insecure_channel (addr : string) (w : world) :
  run (insecure_channel addr) w =
  (inr (length (channels w)),
   {| channels := channels w ++ [{| target := addr; closed := false |}];
      pending := pending w;
      trace := trace w ++ [EvChannel (length (channels w)) addr] |}).
Proof. reflexivity. Qed.

Lemma run_emit (l : logger_obj) (lv : log_level) (msg : string) (w : world) :
  run (emit l lv msg) w =
  (inr tt,
   record_event (EvLog {| logger_name := logger_id l; level := lv; message := msg |}) w).
Proof. reflexivity. Qed.

Lemma run_SendOrderConfirmation_open (stub : EmailServiceStub_obj)
    (request : SendOrderConfirmationRequest) (w : world) :
  is_open (stub_channel stub) w = true ->
  run (SendOrderConfirmation stub request) w =
  (match pending w with
   | [] => inl Hang
   | Returns response :: _ => inr response
   | Raises e :: _ => inl (Exception e)
   end,
   record_event (EvCall (stub_channel stub) "SendOrderConfirmation" request)
     (with_pending (tl (pending w)) w)).
Proof.
  intros Hopen. unfold run, SendOrderConfirmation. simpl. rewrite Hopen. simpl.
  destruct (pending w) as [| [response | e] rest]; reflexivity.
Qed.

Lemma run_SendOrderConfirmation_closed (stub : EmailServiceStub_obj)
    (request : SendOrderConfirmationRequest) (w : world) :
  is_open (stub_channel stub) w = false ->
  run (SendOrderConfirmation stub request) w =
  (inl (Exception (OtherError "ValueError" "Cannot invoke RPC on closed channel!")), w).
Proof.
  intros Hopen. unfold run, SendOrderConfirmation. simpl. rewrite Hopen. reflexivity.
Qed.

Lemma run_send_confirmation_email (w : world) (email order : pyval) :
  run (send_confirmation_email email order) w =
  (call_result email order (hd_error (pending w)),
   {| channels := channels w ++ [{| target := address; closed := false |}];
      pending := call_pending email order (pending w);
      trace := trace w
               ++ call_events (length (channels w)) email order (hd_error (pending w)) |}).
Proof.
  unfold send_confirmation_email.
  rewrite run_bind, run_insecure_channel.
  rewrite run_bind. unfold EmailServiceStub at 1. rewrite run_ret.
  rewrite run_try_except, run_bind.
  unfold new_SendOrderConfirmationRequest, call_result, call_pending, call_events.
  destruct (SendOrderConfirmationRequest_init email order) as [[cls msg] | request].
  - rewrite run_raise. reflexivity.
  - rewrite run_ret, run_bind.
    rewrite run_SendOrderConfirmation_open
      by (apply fresh_channel_open; reflexivity).
    unfold logger_info, logger_error, answer_events, answer_result, record_event,
      with_pending, address.
    cbn [pending trace channels stub_channel].
    destruct (pending w) as [| [response | [err | cls msg]] rest];
      cbn [hd_error tl];
      repeat (rewrite ?run_bind, ?run_emit; unfold record_event;
              cbn [pending trace channels logger_id logger getJSONLogger]);
      unfold info_record, error_record;
      repeat rewrite <- app_assoc; reflexivity.
Qed.

Lemma result_send_confirmation_email (w : world) (email order : pyval) :
  result (send_confirmation_email email order) w
  = call_result email order (hd_error (pending w)).
Proof. unfold result. rewrite run_send_confirmation_email. reflexivity. Qed.

Lemma after_send_confirmation_email (w : world) (email order : pyval) :
  after (send_confirmation_email email order) w =
  {| channels := channels w ++ [{| target := address; closed := false |}];
     pending := call_pending email order (pending w);
     trace := trace w
              ++ call_events (length (channels w)) email order (hd_error (pending w)) |}.
Proof. unfold after. rewrite run_send_confirmation_email. reflexivity. Qed.

Lemma emitted_send_confirmation_email (w : world) (email order : pyval) :
  emitted (send_confirmation_email email order) w =
  call_events (length (channels w)) email order (hd_error (pending w)).
Proof.
  unfold emitted. rewrite after_send_confirmation_email.
  cbn [trace]. apply skipn_own_length.
Qed.


(** *** Pairs the constructor takes *)

Lemma accepted_init (email order : pyval) :
  accepted email order = true ->
  SendOrderConfirmationRequest_init email order = inr (request_of (email, order)).
Proof.
  unfold accepted, SendOrderConfirmationRequest_init, email_field, order_field,
    request_of.
  destruct email as [| z | s | items], order as [| z' | s' | items'];
    cbn [fst snd]; try discriminate; try reflexivity;
    destruct (OrderResult_rejects items') as [e |]; discriminate || reflexivity.
Qed.

Lemma rejected_init (email order : pyval) :
  accepted email order = false ->
  exists cls msg, SendOrderConfirmationRequest_init email order = inl (cls, msg).
Proof.
  unfold accepted.
  destruct (SendOrderConfirmationRequest_init email order) as [[cls msg] | request];
    [eauto | discriminate].
Qed.

Lemma result_accepted (w : world) (email order : pyval) :
  accepted email order = true ->
  result (send_confirmation_email email order) w = answer_result (hd_error (pending w)).
Proof.
  intros Hacc. rewrite result_send_confirmation_email. unfold call_result.
  rewrite (accepted_init _ _ Hacc). reflexivity.
Qed.

Lemma emitted_accepted (w : world) (email order : pyval) :
  accepted email order = true ->
  emitted (send_confirmation_email email order) w
  = EvChannel (length (channels w)) address
    :: EvCall (length (channels w)) "SendOrderConfirmation" (request_of (email, order))
    :: answer_events (hd_error (pending w)).
Proof.
  intros Hacc. rewrite emitted_send_confirmation_email. unfold call_events.
  rewrite (accepted_init _ _ Hacc). reflexivity.
Qed.

Lemma pending_accepted (w : world) (email order : pyval) :
  accepted email order = true ->
  pending (after (send_confirmation_email email order) w) = tl (pending w).
Proof.
  intros Hacc. rewrite after_send_confirmation_email. cbn [pending].
  unfold call_pending. rewrite (accepted_init _ _ Hacc). reflexivity.
Qed.

Lemma log_records_answer_events (n : nat) (request : SendOrderConfirmationRequest)
    (o : option rpc_outcome) :
  EvChannel n address :: EvCall n "SendOrderConfirmation" request :: answer_events o
  = EvChannel n address :: EvCall n "SendOrderConfirmation" request
    :: map EvLog (log_records (EvChannel n address
                               :: EvCall n "SendOrderConfirmation" request
                               :: answer_events o)).
Proof. destruct o as [[response | [err | cls msg]] |]; reflexivity. Qed.

(** Every description of a status code is made of lower-case letters and
    spaces, so [repr_str] prints it as Python does. *)
Lemma descriptions_are_plain (c : StatusCode) : plain (snd (value c)) = true.
Proof. destruct c; reflexivity. Qed.

(** *** Closing, and the other ways a call can end *)

(** Closing is visible in the model: a closed channel is no longer open. *)
Lemma nth_error_close_at (cs : list channel) (id : nat) :
  nth_error (close_at id cs) id =
  option_map (fun c => {| target := target c; closed := true |}) (nth_error cs id).
Proof.
  revert id. induction cs as [| c cs IH]; intros [| id]; simpl; auto.
Qed.

Lemma channel_close_closes (id : nat) (w : world) :
  is_open id (after (channel_close id) w) = false.
Proof.
  unfold is_open, after, run, channel_close. cbn.
  rewrite nth_error_close_at.
  destruct (nth_error (channels w) id); reflexivity.
Qed.

(** A closed channel carries no call: the stub raises before anything is
    sent. *)
Lemma closed_channel_refuses (id : nat) (w : world)
    (request : SendOrderConfirmationRequest) :
  run (SendOrderConfirmation {| stub_channel := id |} request)
      (after (channel_close id) w)
  = (inl (Exception (OtherError "ValueError" "Cannot invoke RPC on closed channel!")),
     after (channel_close id) w).
Proof.
  apply run_SendOrderConfirmation_closed. apply channel_close_closes.
Qed.

(** A service that never answers blocks the caller. *)
Lemma silent_service_hangs (w : world) (email order : pyval) :
  accepted email order = true ->
  pending w = [] ->
  result (send_confirmation_email email order) w = inl Hang.
Proof.
  intros Hacc Hp. rewrite (result_accepted _ _ _ Hacc), Hp. reflexivity.
Qed.

(** Imported rather than run, the [__main__] block does nothing. *)
Lemma import_is_silent (name__ : string) (w : world) :
  name__ <> "__main__" -> run (module_toplevel name__) w = (inr tt, w).
Proof.
  intros Hne. unfold module_toplevel.
  destruct (String.eqb_spec name__ "__main__") as [Heq | _]; [contradiction |].
  reflexivity.
Qed.

(** *** Several calls *)

Lemma rpc_calls_app (t1 t2 : list event) :
  rpc_calls (t1 ++ t2) = rpc_calls t1 ++ rpc_calls t2.
Proof. unfold rpc_calls. apply flat_map_app. Qed.

Lemma rpc_calls_call_events (n : nat) (email order : pyval) (o : option rpc_outcome) :
  accepted email order = true ->
  rpc_calls (call_events n email order o)
  = [(n, "SendOrderConfirmation", request_of (email, order))].
Proof.
  intros Hacc. unfold call_events. rewrite (accepted_init _ _ Hacc).
  destruct o as [[response | [err | cls msg]] |]; reflexivity.
Qed.

Lemma rpc_calls_batch_events (args : list (pyval * pyval)) :
  Forall (fun a => accepted (fst a) (snd a) = true) args ->
  forall (n : nat) (answers : list rpc_outcome),
    map snd (rpc_calls (batch_events n args answers)) = map request_of args
    /\ map (fun c => fst (fst c)) (rpc_calls (batch_events n args answers))
       = seq n (length args).
Proof.
  induction args as [| [email order] args IH]; intros Hacc n answers.
  - split; reflexivity.
  - inversion Hacc as [| a args' Ha Hacc']; subst a args'. cbn [fst snd] in Ha.
    cbn [batch_events]. rewrite rpc_calls_app, (rpc_calls_call_events _ _ _ _ Ha).
    destruct (IH Hacc' (S n) (tl answers)) as [IHreq IHchan].
    cbn [app map length seq snd fst]. rewrite IHreq, IHchan.
    split; reflexivity.
Qed.

Lemma run_send_all (args : list (pyval * pyval)) :
  Forall (fun a => accepted (fst a) (snd a) = true) args ->
  forall (answers rest : list rpc_outcome) (w : world),
    length answers = length args ->
    Forall success_or_rpc_failure answers ->
    pending w = answers ++ rest ->
    run (send_all args) w =
    (inr tt,
     {| channels := channels w
                    ++ repeat {| target := address; closed := false |} (length args);
        pending := rest;
        trace := trace w ++ batch_events (length (channels w)) args answers |}).
Proof.
  induction args as [| [email order] args IH];
    intros Hacc answers rest w Hlen Hall Hp.
  - destruct answers as [| o answers]; [| discriminate Hlen].
    destruct w as [cs p t]. cbn in Hp. subst p.
    cbn [send_all batch_events repeat length channels trace].
    rewrite run_ret, !app_nil_r. reflexivity.
  - destruct answers as [| o answers]; [discriminate Hlen |].
    cbn [length] in Hlen. injection Hlen as Hlen.
    inversion Hall as [| o' answers' Ho Hall']; subst o' answers'.
    inversion Hacc as [| a args' Ha Hacc']; subst a args'. cbn [fst snd] in Ha.
    cbn [send_all]. rewrite run_bind, run_send_confirmation_email, Hp.
    unfold call_result, call_pending. rewrite (accepted_init _ _ Ha).
    cbn [app hd_error tl].
    assert (Hres : answer_result (Some o) = inr tt).
    { destruct o as [response | [err | cls msg]]; [reflexivity | reflexivity |].
      destruct Ho. }
    rewrite Hres. cbv beta iota.
    rewrite (IH Hacc' answers rest) by (assumption || reflexivity).
    cbn [channels trace batch_events length repeat hd_error tl].
    rewrite length_app, Nat.add_1_r, <- !app_assoc.
    reflexivity.
Qed.

(** The pairs the constructor takes: an email that is [None] or a string,
    with an order that is [None] or a record the schema has nothing against. *)
Lemma accepted_iff (email order : pyval) :
  accepted email order = true
  <-> (email = PyNone \/ exists s, email = PyStr s)
      /\ (order = PyNone
          \/ exists items, order = PyDict items /\ OrderResult_rejects items = None).
Proof.
  unfold accepted, SendOrderConfirmationRequest_init, email_field, order_field.
  split.
  - destruct email as [| z | s | items], order as [| z' | s' | items'];
      try discriminate; intros H;
      (split; [first [left; reflexivity | right; eexists; reflexivity] |]);
      try (left; reflexivity);
      try (destruct (OrderResult_rejects items') as [e |] eqn:Hr;
           [discriminate | right; exists items'; split; [reflexivity | exact Hr]]).
  - intros [[-> | [s ->]] [-> | [items [-> Hr]]]]; try reflexivity;
      rewrite Hr; reflexivity.
Qed.

(** ** Properties of the specification *)


(** C2. When the remote call succeeds, the call emits exactly one log
    record, at the informational level and with the message "Request sent.",
    and no record at the error level. *)
Theorem success_logs_one_info (w : world) (email order response : pyval)
    (rest : list rpc_outcome) :
  accepted email order = true ->
  pending w = Returns response :: rest ->
  log_records (emitted (send_confirmation_email email order) w)
  = [{| logger_name := "emailservice-client"; level := INFO;
        message := "Request sent." |}]
  /\ count_level INFO (log_records (emitted (send_confirmation_email email order) w)) = 1
  /\ count_level ERROR (log_records (emitted (send_confirmation_email email order) w)) = 0.
Proof.
  intros Hacc Hp. rewrite (emitted_accepted _ _ _ Hacc), Hp.
  repeat split; reflexivity.
Qed.

(** C3 (amended). When the remote call fails with a remote-call error of
    detail D and of code c, the call emits exactly two log records, both at
    the error level: the first carries D, the second carries the name of c,
    a comma, a space and the value of c as Python prints it, which is the
    pair of its number and its description, as in
    UNAVAILABLE, (14, 'unavailable').  Then it returns normally. *)
Theorem failure_logs_detail_then_code (w : world) (email order : pyval)
    (D : string) (c : StatusCode) (rest : list rpc_outcome) :
  accepted email order = true ->
  pending w = Raises (GrpcRpcError {| details := D; code := c |}) :: rest ->
  log_records (emitted (send_confirmation_email email order) w)
  = [{| logger_name := "emailservice-client"; level := ERROR; message := D |};
     {| logger_name := "emailservice-client"; level := ERROR;
        message := (name c ++ ", (" ++ str_int (fst (value c)) ++ ", '"
                    ++ snd (value c) ++ "')")%string |}]
  /\ map message (log_records (emitted (send_confirmation_email email order) w))
     = [D;
        match c with
        | OK => "OK, (0, 'ok')"
        | CANCELLED => "CANCELLED, (1, 'cancelled')"
        | UNKNOWN => "UNKNOWN, (2, 'unknown')"
        | INVALID_ARGUMENT => "INVALID_ARGUMENT, (3, 'invalid argument')"
        | DEADLINE_EXCEEDED => "DEADLINE_EXCEEDED, (4, 'deadline exceeded')"
        | NOT_FOUND => "NOT_FOUND, (5, 'not found')"
        | ALREADY_EXISTS => "ALREADY_EXISTS, (6, 'already exists')"
        | PERMISSION_DENIED => "PERMISSION_DENIED, (7, 'permission denied')"
        | RESOURCE_EXHAUSTED => "RESOURCE_EXHAUSTED, (8, 'resource exhausted')"
        | FAILED_PRECONDITION => "FAILED_PRECONDITION, (9, 'failed precondition')"
        | ABORTED => "ABORTED, (10, 'aborted')"
        | OUT_OF_RANGE => "OUT_OF_RANGE, (11, 'out of range')"
        | UNIMPLEMENTED => "UNIMPLEMENTED, (12, 'unimplemented')"
        | INTERNAL => "INTERNAL, (13, 'internal')"
        | UNAVAILABLE => "UNAVAILABLE, (14, 'unavailable')"
        | DATA_LOSS => "DATA_LOSS, (15, 'data loss')"
        | UNAUTHENTICATED => "UNAUTHENTICATED, (16, 'unauthenticated')"
        end]
  /\ count_level ERROR (log_records (emitted (send_confirmation_email email order) w)) = 2
  /\ count_level INFO (log_records (emitted (send_confirmation_email email order) w)) = 0
  /\ result (send_confirmation_email email order) w = inr tt.
Proof.
  intros Hacc Hp.
  rewrite (emitted_accepted _ _ _ Hacc), (result_accepted _ _ _ Hacc), Hp.
  split; [destruct c; reflexivity |].
  split; [destruct c; reflexivity |].
  repeat split; reflexivity.
Qed.

(** C4. Whether the remote call succeeds or fails with a remote-call error,
    the call returns normally with the same value, [None]: a failure is
    never handed to the caller, neither as an exception nor in the result. *)
Theorem failure_never_reaches_caller (w : world) (email order : pyval)
    (o : rpc_outcome) (rest : list rpc_outcome) :
  accepted email order = true ->
  pending w = o :: rest ->
  success_or_rpc_failure o ->
  result (send_confirmation_email email order) w = inr tt.
Proof.
  intros Hacc Hp Ho. rewrite (result_accepted _ _ _ Hacc), Hp.
  destruct o as [response | [err | cls msg]]; [reflexivity | reflexivity |].
  destruct Ho.
Qed.

(** C5 (amended). The function has no check of its own; the request
    constructor it calls has.  How a call ends is decided by the constructor
    first and by the answer of the service next: a pair the constructor
    refuses ends in the constructor's exception, which is not caught, after
    the channel was created and before any remote call or log record; a pair
    it takes goes out, and a rejection by the service, which arrives as a
    remote-call error, ends in a normal return.  Absent values are taken:
    with [None] for both, the request goes out with both fields unset.  An
    integer is refused, as email and as order, with a TypeError. *)
Theorem validation_is_the_constructor_s (w : world) (email order : pyval) :
  result (send_confirmation_email email order) w
  = match SendOrderConfirmationRequest_init email order with
    | inl (cls, msg) => inl (Exception (OtherError cls msg))
    | inr _ =>
        match pending w with
        | [] => inl Hang
        | Returns _ :: _ => inr tt
        | Raises (GrpcRpcError _) :: _ => inr tt
        | Raises (OtherError cls msg) :: _ => inl (Exception (OtherError cls msg))
        end
    end
  /\ (if accepted email order
      then firstn 2 (emitted (send_confirmation_email email order) w)
           = [EvChannel (length (channels w)) "[::]:8080";
              EvCall (length (channels w)) "SendOrderConfirmation"
                (request_of (email, order))]
      else emitted (send_confirmation_email email order) w
           = [EvChannel (length (channels w)) "[::]:8080"])
  /\ rpc_calls (emitted (send_confirmation_email PyNone PyNone) w)
     = [(length (channels w), "SendOrderConfirmation",
         {| email := ""; order := None |})]
  /\ (forall z : Z,
        result (send_confirmation_email (PyInt z) order) w
        = inl (Exception (OtherError "TypeError" (type_error_text "email" (PyInt z)))))
  /\ (forall (s : string) (z : Z),
        result (send_confirmation_email (PyStr s) (PyInt z)) w
        = inl (Exception (OtherError "TypeError" (type_error_text "order" (PyInt z))))).
Proof.
  split; [| split; [| split; [| split]]].
  - rewrite result_send_confirmation_email. unfold call_result.
    destruct (SendOrderConfirmationRequest_init email order) as [[cls msg] | request];
      [reflexivity |].
    destruct (pending w) as [| [response | [err | cls msg]] rest]; reflexivity.
  - destruct (accepted email order) eqn:Hacc.
    + rewrite (emitted_accepted _ _ _ Hacc). reflexivity.
    + rewrite emitted_send_confirmation_email. unfold call_events.
      destruct (rejected_init _ _ Hacc) as [cls [msg Hinit]].
      rewrite Hinit. reflexivity.
  - rewrite emitted_send_confirmation_email.
    destruct (hd_error (pending w)) as [[response | [err | cls msg]] |]; reflexivity.
  - intros z. rewrite result_send_confirmation_email. reflexivity.
  - intros s z. rewrite result_send_confirmation_email. reflexivity.
Qed.

(** C6. Every call creates exactly one channel object, to the fixed address
    "[::]:8080": the object did not exist before the call, the remote call,
    when there is one, goes over it, and the next call, whatever its
    arguments, creates another one. *)
Theorem one_fresh_channel_per_call (w : world) (email order : pyval) :
  nth_error (channels w) (length (channels w)) = None
  /\ channels (after (send_confirmation_email email order) w)
     = channels w ++ [{| target := "[::]:8080"; closed := false |}]
  /\ channels_opened (emitted (send_confirmation_email email order) w)
     = [(length (channels w), "[::]:8080")]
  /\ map (fun c => fst (fst c))
       (rpc_calls (emitted (send_confirmation_email email order) w))
     = (if accepted email order then [length (channels w)] else [])
  /\ forall email' order' : pyval,
       channels_opened
         (emitted (send_confirmation_email email' order')
            (after (send_confirmation_email email order) w))
       = [(S (length (channels w)), "[::]:8080")].
Proof.
  assert (Hopened : forall n e o a,
             channels_opened (call_events n e o a) = [(n, "[::]:8080")]).
  { intros n e o a. unfold call_events.
    destruct (SendOrderConfirmationRequest_init e o) as [[cls msg] | request];
      [reflexivity |].
    destruct a as [[response | [err | cls msg]] |]; reflexivity. }
  split; [apply nth_error_None; lia |].
  split; [rewrite after_send_confirmation_email; reflexivity |].
  split; [| split].
  - rewrite emitted_send_confirmation_email. apply Hopened.
  - rewrite emitted_send_confirmation_email. unfold call_events, accepted.
    destruct (SendOrderConfirmationRequest_init email order) as [[cls msg] | request];
      [reflexivity |].
    destruct (hd_error (pending w)) as [[response | [err | cls msg]] |]; reflexivity.
  - intros email' order'.
    rewrite emitted_send_confirmation_email, after_send_confirmation_email.
    cbn [channels pending].
    rewrite length_app, Nat.add_1_r. apply Hopened.
Qed.

(** C7. Calls are independent: what a call shows to the outside (the
    request it sends and the log records it emits) and how it ends depend
    on its own arguments and on the answer the service gives to it, not on
    the world it starts from, so not on any earlier call. *)
Theorem calls_are_independent (w1 w2 : world) (email order : pyval) :
  hd_error (pending w1) = hd_error (pending w2) ->
  observe (emitted (send_confirmation_email email order) w1)
  = observe (emitted (send_confirmation_email email order) w2)
  /\ result (send_confirmation_email email order) w1
     = result (send_confirmation_email email order) w2.
Proof.
  intros Hsame.
  rewrite !emitted_send_confirmation_email, !result_send_confirmation_email, Hsame.
  split; [| reflexivity].
  unfold call_events.
  destruct (SendOrderConfirmationRequest_init email order) as [[cls msg] | request];
    reflexivity.
Qed.

(** C8. On success the response is not looked at: with two different
    responses to the same call, the function returns the same value and
    leaves the same world, so the same log records. *)
Theorem response_is_not_inspected (w : world) (email order R1 R2 : pyval)
    (rest : list rpc_outcome) :
  accepted email order = true ->
  run (send_confirmation_email email order) (with_pending (Returns R1 :: rest) w)
  = run (send_confirmation_email email order) (with_pending (Returns R2 :: rest) w)
  /\ log_records (emitted (send_confirmation_email email order)
                    (with_pending (Returns R1 :: rest) w))
     = log_records (emitted (send_confirmation_email email order)
                      (with_pending (Returns R2 :: rest) w)).
Proof.
  intros Hacc.
  rewrite !run_send_confirmation_email, !emitted_send_confirmation_email.
  unfold call_result, call_pending, call_events.
  rewrite (accepted_init _ _ Hacc).
  split; reflexivity.
Qed.

(** C9. Run as a script, the module emits one informational log record,
    "Client for email service.", and does nothing else: it ends normally,
    creates no channel, consumes no answer of the service, issues no remote
    call. *)
Theorem script_logs_startup_line_only (w : world) :
  run (module_toplevel "__main__") w
  = (inr tt,
     {| channels := channels w;
        pending := pending w;
        trace := trace w ++ [EvLog {| logger_name := "emailservice-client";
                                      level := INFO;
                                      message := "Client for email service." |}] |})
  /\ emitted (module_toplevel "__main__") w
     = [EvLog {| logger_name := "emailservice-client"; level := INFO;
                 message := "Client for email service." |}]
  /\ rpc_calls (emitted (module_toplevel "__main__") w) = [].
Proof.
  assert (Hrun : run (module_toplevel "__main__") w
                 = (inr tt, record_event (EvLog (info_record "Client for email service.")) w))
    by reflexivity.
  assert (Hem : emitted (module_toplevel "__main__") w
                = [EvLog (info_record "Client for email service.")]).
  { unfold emitted, after. rewrite Hrun. cbn [snd record_event trace].
    apply skipn_own_length. }
  split; [exact Hrun |]. split; [exact Hem |]. rewrite Hem. reflexivity.
Qed.

(** C10. The function never closes the channel it creates: however the call
    ends, the channel object it created is still open when it stops, and no
    close happened on the way. *)
Theorem channel_is_left_open (w : world) (email order : pyval) :
  nth_error (channels (after (send_confirmation_email email order) w))
    (length (channels w))
  = Some {| target := "[::]:8080"; closed := false |}
  /\ is_open (length (channels w)) (after (send_confirmation_email email order) w) = true
  /\ channels_closed (emitted (send_confirmation_email email order) w) = [].
Proof.
  rewrite after_send_confirmation_email, emitted_send_confirmation_email.
  split; [| split].
  - cbn [channels]. rewrite nth_error_app2 by lia. rewrite Nat.sub_diag. reflexivity.
  - apply fresh_channel_open. reflexivity.
  - unfold call_events.
    destruct (SendOrderConfirmationRequest_init email order) as [[cls msg] | request];
      [reflexivity |].
    destruct (hd_error (pending w)) as [[response | [err | cls msg]] |]; reflexivity.
Qed.

(** ** Further properties of the code *)

(** X1. An exception of the remote call that is not a [grpc.RpcError] is
    not caught: it reaches the caller after the channel was created and the
    request sent, and no log record at all is written. *)
Theorem unhandled_exception_escapes (w : world) (email order : pyval)
    (cls msg : string) (rest : list rpc_outcome) :
  accepted email order = true ->
  pending w = Raises (OtherError cls msg) :: rest ->
  result (send_confirmation_email email order) w
  = inl (Exception (OtherError cls msg))
  /\ emitted (send_confirmation_email email order) w
     = [EvChannel (length (channels w)) "[::]:8080";
        EvCall (length (channels w)) "SendOrderConfirmation"
          (request_of (email, order))].
Proof.
  intros Hacc Hp.
  rewrite (result_accepted _ _ _ Hacc), (emitted_accepted _ _ _ Hacc), Hp.
  split; reflexivity.
Qed.

(** X4. Whatever the arguments and whatever happens, the events of a call
    are, in this order: the creation of the channel, then, when the
    constructor takes the pair, the remote call, then the log records.  So
    no record is written before the request has gone out, and none at all
    when the constructor refuses the pair; there are at most two of them,
    all under the logger name "emailservice-client". *)
Theorem logs_follow_the_call (w : world) (email order : pyval) :
  emitted (send_confirmation_email email order) w
  = EvChannel (length (channels w)) "[::]:8080"
    :: match SendOrderConfirmationRequest_init email order with
       | inl _ => []
       | inr request =>
           EvCall (length (channels w)) "SendOrderConfirmation" request
           :: map EvLog (log_records (emitted (send_confirmation_email email order) w))
       end
  /\ length (log_records (emitted (send_confirmation_email email order) w)) <= 2
  /\ Forall (fun r => logger_name r = "emailservice-client")
       (log_records (emitted (send_confirmation_email email order) w)).
Proof.
  rewrite emitted_send_confirmation_email. unfold call_events.
  destruct (SendOrderConfirmationRequest_init email order) as [[cls msg] | request].
  - cbn. repeat split; auto.
  - destruct (hd_error (pending w)) as [[response | [err | cls msg]] |];
      cbn; repeat split; auto.
Qed.

(** X5. Calls made one after the other, each with a pair the constructor
    takes and each answered by a response or by a [grpc.RpcError], all
    return normally: the run creates one channel per call and leaves every
    one of them open, sends the requests in the order of the arguments, each
    over its own channel, and uses up exactly one answer per call. *)
Theorem calls_in_sequence (args : list (pyval * pyval))
    (answers rest : list rpc_outcome) (w : world) :
  Forall (fun a => accepted (fst a) (snd a) = true) args ->
  length answers = length args ->
  Forall success_or_rpc_failure answers ->
  pending w = answers ++ rest ->
  result (send_all args) w = inr tt
  /\ channels (after (send_all args) w)
     = channels w ++ repeat {| target := "[::]:8080"; closed := false |} (length args)
  /\ map snd (rpc_calls (emitted (send_all args) w)) = map request_of args
  /\ map (fun c => fst (fst c)) (rpc_calls (emitted (send_all args) w))
     = seq (length (channels w)) (length args)
  /\ pending (after (send_all args) w) = rest.
Proof.
  intros Hacc Hlen Hall Hp.
  unfold result, after, emitted, after.
  rewrite (run_send_all args Hacc answers rest w Hlen Hall Hp).
  cbn [fst snd channels pending trace].
  rewrite skipn_own_length.
  destruct (rpc_calls_batch_events args Hacc (length (channels w)) answers)
    as [Hreq Hchan].
  repeat split; assumption || reflexivity.
Qed.

End Demo_pb2.

(** ** Runs with the sample schema *)

Example run_success :
  run (send_confirmation_email sample_text sample_rejects (PyStr "a@b.com") order123)
      (with_pending [Returns PyNone] world0)
  = (inr tt,
     {| channels := [{| target := "[::]:8080"; closed := false |}];
        pending := [];
        trace := [EvChannel 0 "[::]:8080";
                  EvCall 0 "SendOrderConfirmation"
                    {| email := "a@b.com"; order := Some order123 |};
                  EvLog {| logger_name := "emailservice-client"; level := INFO;
                           message := "Request sent." |}] |}).
Proof. reflexivity. Qed.

Example run_failure :
  run (send_confirmation_email sample_text sample_rejects (PyStr "a@b.com") order123)
      (with_pending [Raises (GrpcRpcError unavailable)] world0)
  = (inr tt,
     {| channels := [{| target := "[::]:8080"; closed := false |}];
        pending := [];
        trace := [EvChannel 0 "[::]:8080";
                  EvCall 0 "SendOrderConfirmation"
                    {| email := "a@b.com"; order := Some order123 |};
                  EvLog {| logger_name := "emailservice-client"; level := ERROR;
                           message := "unavailable" |};
                  EvLog {| logger_name := "emailservice-client"; level := ERROR;
                           message := "UNAVAILABLE, (14, 'unavailable')" |}] |}).
Proof. reflexivity. Qed.

Example run_refused :
  run (send_confirmation_email sample_text sample_rejects (PyInt 7) order123)
      (with_pending [Returns PyNone] world0)
  = (inl (Exception (OtherError "TypeError" (sample_text "email" (PyInt 7)))),
     {| channels := [{| target := "[::]:8080"; closed := false |}];
        pending := [Returns PyNone];
        trace := [EvChannel 0 "[::]:8080"] |}).
Proof. reflexivity. Qed.



Lemma success_logs_one_info_witness :
  (accepted sample_text sample_rejects (PyStr "a@b.com") order123 = true
   /\ pending (with_pending [Returns PyNone] world0) = Returns PyNone :: [])
  /\ log_records (emitted (send_confirmation_email sample_text sample_rejects
                             (PyStr "a@b.com") order123)
                    (with_pending [Returns PyNone] world0))
     = [{| logger_name := "emailservice-client"; level := INFO;
           message := "Request sent." |}].
Proof.
  split; [split; reflexivity |].
  apply (success_logs_one_info sample_text sample_rejects
           (with_pending [Returns PyNone] world0)
           (PyStr "a@b.com") order123 PyNone []); reflexivity.
Defined.

(** C3, as first stated, fails: for the code UNAVAILABLE the second record
    is not "UNAVAILABLE, 14" and does not contain it, since the value of the
    code is printed as a pair. *)
Lemma code_value_is_logged_as_a_pair :
  map message
    (log_records (emitted (send_confirmation_email sample_text sample_rejects
                             (PyStr "a@b.com") order123)
                    (with_pending [Raises (GrpcRpcError unavailable)] world0)))
  = ["unavailable"; "UNAVAILABLE, (14, 'unavailable')"]
  /\ contains "UNAVAILABLE, 14" "UNAVAILABLE, (14, 'unavailable')" = false.
Proof. split; reflexivity. Qed.

Lemma failure_logs_detail_then_code_witness :
  (accepted sample_text sample_rejects (PyStr "a@b.com") order123 = true
   /\ pending (with_pending [Raises (GrpcRpcError unavailable)] world0)
      = Raises (GrpcRpcError {| details := "unavailable"; code := UNAVAILABLE |}) :: [])
  /\ map message
       (log_records (emitted (send_confirmation_email sample_text sample_rejects
                                (PyStr "a@b.com") order123)
                       (with_pending [Raises (GrpcRpcError unavailable)] world0)))
     = ["unavailable"; "UNAVAILABLE, (14, 'unavailable')"]
  /\ result (send_confirmation_email sample_text sample_rejects
               (PyStr "a@b.com") order123)
       (with_pending [Raises (GrpcRpcError unavailable)] world0) = inr tt.
Proof.
  split; [split; reflexivity |].
  pose proof (failure_logs_detail_then_code sample_text sample_rejects
                (with_pending [Raises (GrpcRpcError unavailable)] world0)
                (PyStr "a@b.com") order123 "unavailable" UNAVAILABLE []
                eq_refl eq_refl) as [_ [Hmsg [_ [_ Hres]]]].
  split; [exact Hmsg | exact Hres].
Defined.

Lemma failure_never_reaches_caller_witness :
  (accepted sample_text sample_rejects (PyStr "a@b.com") order123 = true
   /\ pending (with_pending [Raises (GrpcRpcError unavailable)] world0)
      = Raises (GrpcRpcError unavailable) :: []
   /\ success_or_rpc_failure (Raises (GrpcRpcError unavailable)))
  /\ result (send_confirmation_email sample_text sample_rejects
               (PyStr "a@b.com") order123)
       (with_pending [Raises (GrpcRpcError unavailable)] world0)
     = inr tt.
Proof.
  split; [split; [reflexivity | split; [reflexivity | exact I]] |].
  apply (failure_never_reaches_caller sample_text sample_rejects
           (with_pending [Raises (GrpcRpcError unavailable)] world0)
           (PyStr "a@b.com") order123 (Raises (GrpcRpcError unavailable)) []).
  - reflexivity.
  - reflexivity.
  - exact I.
Defined.

(** C5, as first stated, fails: with an integer for the order and a service
    that would answer with a response, the call ends in a TypeError raised
    before the remote call; the service is never asked and nothing is
    logged. *)
Lemma integer_order_is_refused_before_the_call :
  run (send_confirmation_email sample_text sample_rejects PyNone (PyInt 7))
      (with_pending [Returns PyNone] world0)
  = (inl (Exception (OtherError "TypeError" (sample_text "order" (PyInt 7)))),
     {| channels := [{| target := "[::]:8080"; closed := false |}];
        pending := [Returns PyNone];
        trace := [EvChannel 0 "[::]:8080"] |}).
Proof. reflexivity. Qed.

Lemma calls_are_independent_witness :
  hd_error (pending (with_pending [Returns PyNone] world0))
  = hd_error
      (pending
         (after (send_confirmation_email sample_text sample_rejects
                   (PyStr "x@y.org") PyNone)
            (with_pending [Raises (GrpcRpcError unavailable); Returns PyNone] world0)))
  /\ observe (emitted (send_confirmation_email sample_text sample_rejects
                         (PyStr "a@b.com") order123)
                (with_pending [Returns PyNone] world0))
     = observe (emitted (send_confirmation_email sample_text sample_rejects
                           (PyStr "a@b.com") order123)
                  (after (send_confirmation_email sample_text sample_rejects
                            (PyStr "x@y.org") PyNone)
                     (with_pending [Raises (GrpcRpcError unavailable); Returns PyNone]
                        world0))).
Proof.
  split; [reflexivity |].
  apply (calls_are_independent sample_text sample_rejects
           (with_pending [Returns PyNone] world0)
           (after (send_confirmation_email sample_text sample_rejects
                     (PyStr "x@y.org") PyNone)
              (with_pending [Raises (GrpcRpcError unavailable); Returns PyNone] world0))
           (PyStr "a@b.com") order123).
  reflexivity.
Defined.

Lemma response_is_not_inspected_witness :
  accepted sample_text sample_rejects (PyStr "a@b.com") order123 = true
  /\ run (send_confirmation_email sample_text sample_rejects (PyStr "a@b.com") order123)
       (with_pending [Returns PyNone] world0)
     = run (send_confirmation_email sample_text sample_rejects (PyStr "a@b.com") order123)
         (with_pending [Returns (PyStr "ack")] world0).
Proof.
  split; [reflexivity |].
  apply (response_is_not_inspected sample_text sample_rejects world0
           (PyStr "a@b.com") order123 PyNone (PyStr "ack") []).
  reflexivity.
Defined.

Lemma unhandled_exception_escapes_witness :
  (accepted sample_text sample_rejects (PyStr "a@b.com") order123 = true
   /\ pending (with_pending [Raises (OtherError "RuntimeError" "boom")] world0)
      = Raises (OtherError "RuntimeError" "boom") :: [])
  /\ result (send_confirmation_email sample_text sample_rejects
               (PyStr "a@b.com") order123)
       (with_pending [Raises (OtherError "RuntimeError" "boom")] world0)
     = inl (Exception (OtherError "RuntimeError" "boom")).
Proof.
  split; [split; reflexivity |].
  apply (unhandled_exception_escapes sample_text sample_rejects
           (with_pending [Raises (OtherError "RuntimeError" "boom")] world0)
           (PyStr "a@b.com") order123 "RuntimeError" "boom" []); reflexivity.
Defined.

Lemma calls_in_sequence_witness :
  (Forall (fun a => accepted sample_text sample_rejects (fst a) (snd a) = true)
     two_orders
   /\ length [Raises (GrpcRpcError unavailable); Returns PyNone] = length two_orders
   /\ Forall success_or_rpc_failure [Raises (GrpcRpcError unavailable); Returns PyNone]
   /\ pending (with_pending [Raises (GrpcRpcError unavailable); Returns PyNone] world0)
      = [Raises (GrpcRpcError unavailable); Returns PyNone] ++ [])
  /\ result (send_all sample_text sample_rejects two_orders)
       (with_pending [Raises (GrpcRpcError unavailable); Returns PyNone] world0)
     = inr tt.
Proof.
  assert (Hacc : Forall (fun a => accepted sample_text sample_rejects (fst a) (snd a) = true)
                   two_orders).
  { repeat constructor. }
  assert (Hall : Forall success_or_rpc_failure
                   [Raises (GrpcRpcError unavailable); Returns PyNone]).
  { repeat constructor. }
  split; [split; [exact Hacc | split; [reflexivity | split; [exact Hall | reflexivity]]] |].
  apply (calls_in_sequence sample_text sample_rejects two_orders
           [Raises (GrpcRpcError unavailable); Returns PyNone] []
           (with_pending [Raises (GrpcRpcError unavailable); Returns PyNone] world0)).
  - exact Hacc.
  - reflexivity.
  - exact Hall.
  - reflexivity.
Defined.
